(** * Application layer of the light-sensor firmware (app.c)

    The application module owns one private variable, [RGB_COLOR], and
    otherwise only calls into the board drivers (CMU, sleep, GPIO, I2C,
    scheduler, LETIMER, Si1133, RGB LED).  The drivers are external to
    app.c, so a run of the application is modelled as a state-passing
    computation over

    - the value of [RGB_COLOR],
    - the log of driver calls issued so far, in program order, and
    - the values the Si1133 driver is going to hand back from
      [si1133_read_result], call after call.

    Every function of app.c is transcribed statement by statement. *)

From Stdlib Require Import ZArith List Bool Lia.
From Stdlib Require Import Floats.SpecFloat.
Import ListNotations.
Open Scope Z_scope.

(** ** Machine integers *)

(** [uint32_t]: a value in [0, 2^32), conversions wrap. *)
Definition uint32_max : Z := 2 ^ 32.
Definition to_uint32 (z : Z) : Z := z mod uint32_max.

(** C [float] values are only stored and passed on by this module. *)
Definition float : Type := spec_float.

(** ** Data of letimer.h as used by app.c *)

(** The fields of [APP_LETIMER_PWM_TypeDef] that app.c assigns. *)
Record APP_LETIMER_PWM_TypeDef := {
  active_period : float;
  debugRun : bool;
  enable : bool;
  out_pin_0_en : bool;
  out_pin_1_en : bool;
  out_pin_route0 : Z;
  out_pin_route1 : Z;
  period : float;
  comp0_cb : Z;
  comp0_irq_enable : bool;
  comp1_cb : Z;
  comp1_irq_enable : bool;
  uf_cb : Z;
  uf_irq_enable : bool
}.

(** ** Constants of app.h and of the vendor headers

    app.c refers to these macros; their definitions live in headers that
    are not part of the module, so they are taken as a parameter. *)
Record app_h := {
  PWM_PER : float;
  PWM_ACT_PER : float;
  PWM_ROUTE_0 : Z;
  PWM_ROUTE_1 : Z;
  LETIMER0 : Z;
  LETIMER0_COMP0_CB : Z;
  LETIMER0_COMP1_CB : Z;
  LETIMER0_UF_CB : Z;
  SI1133_LIGHT_CB : Z;
  EXPECTED_READ_DATA : Z;
  RGB_LED_1 : Z;
  COLOR_RED : Z;
  COLOR_GREEN : Z;
  COLOR_BLUE : Z
}.

(** ** Driver calls *)

(** One constructor per driver function called from app.c, with the
    arguments of the call; [Si1133_read_result] carries the value the
    driver returned. *)
Inductive call :=
| Cmu_open
| Sleep_open
| Gpio_open
| Si1133_i2c_open
| Scheduler_open
| Rgb_init
| Letimer_pwm_open (letimer : Z) (app_letimer_struct : APP_LETIMER_PWM_TypeDef)
| Letimer_start (letimer : Z) (en : bool)
| Si1133_read_white_light (cb : Z)
| Si1133_force_cmd
| Si1133_read_result (ret : Z)
| Leds_enabled (leds : Z) (color : Z) (en : bool).

(** ** State of a run *)

Record world := {
  RGB_COLOR : Z;
  calls : list call;
  si1133_results : nat -> Z
}.

(** ** A small state monad *)

Definition app (A : Type) : Type := world -> A * world.

Definition ret {A} (a : A) : app A := fun w => (a, w).

Definition bind {A B} (m : app A) (k : A -> app B) : app B :=
  fun w => let (a, w') := m w in k a w'.

Notation "x <- m ;; k" := (bind m (fun x => k))
  (at level 61, m at next level, right associativity).
Notation "m ;; k" := (bind m (fun _ => k))
  (at level 61, right associativity).

Definition exec {A} (m : app A) (w : world) : world := snd (m w).

(** Issue a driver call that returns nothing. *)
Definition extern (c : call) : app unit :=
  fun w => (tt, {| RGB_COLOR := RGB_COLOR w;
                   calls := calls w ++ [c];
                   si1133_results := si1133_results w |}).

(** Assignment to the module-private variable. *)
Definition set_RGB_COLOR (v : Z) : app unit :=
  fun w => (tt, {| RGB_COLOR := v;
                   calls := calls w;
                   si1133_results := si1133_results w |}).

(** [uint32_t si1133_read_result(void)]: the driver hands back its next
    value, as a [uint32_t]. *)
Definition si1133_read_result : app Z :=
  fun w => let r := to_uint32 (si1133_results w O) in
           (r, {| RGB_COLOR := RGB_COLOR w;
                  calls := calls w ++ [Si1133_read_result r];
                  si1133_results := fun n => si1133_results w (S n) |}).

Definition cmu_open : app unit := extern Cmu_open.
Definition sleep_open : app unit := extern Sleep_open.
Definition gpio_open : app unit := extern Gpio_open.
Definition si1133_i2c_open : app unit := extern Si1133_i2c_open.
Definition scheduler_open : app unit := extern Scheduler_open.
Definition rgb_init : app unit := extern Rgb_init.
Definition letimer_pwm_open (letimer : Z) (s : APP_LETIMER_PWM_TypeDef) : app unit :=
  extern (Letimer_pwm_open letimer s).
Definition letimer_start (letimer : Z) (en : bool) : app unit :=
  extern (Letimer_start letimer en).
Definition si1133_read_white_light (cb : Z) : app unit :=
  extern (Si1133_read_white_light cb).
Definition si1133_force_cmd : app unit := extern Si1133_force_cmd.
Definition leds_enabled (leds color : Z) (en : bool) : app unit :=
  extern (Leds_enabled leds color en).

(** ** app.c *)

Section App.

Variable H : app_h.

(** The structure filled in by [app_letimer_pwm_open], field by field. *)
Definition app_letimer_pwm_struct
    (period' act_period : float)
    (out0_route out1_route comp0_cb' comp1_cb' underflow_cb : Z)
    : APP_LETIMER_PWM_TypeDef :=
  {| active_period := act_period;
     debugRun := false;
     enable := false;
     out_pin_0_en := false;
     out_pin_1_en := false;
     out_pin_route0 := out0_route;
     out_pin_route1 := out1_route;
     period := period';
     comp0_cb := comp0_cb';
     comp0_irq_enable := false;
     comp1_cb := comp1_cb';
     comp1_irq_enable := true;
     uf_cb := underflow_cb;
     uf_irq_enable := true |}.

Definition app_letimer_pwm_open
    (period' act_period : float)
    (out0_route out1_route comp0_cb' comp1_cb' underflow_cb : Z)
    : app unit :=
  letimer_pwm_open (LETIMER0 H)
    (app_letimer_pwm_struct period' act_period
       (to_uint32 out0_route) (to_uint32 out1_route)
       (to_uint32 comp0_cb') (to_uint32 comp1_cb') (to_uint32 underflow_cb)).

Definition rgb_led_open : app unit :=
  set_RGB_COLOR 0 ;;
  rgb_init.

Definition app_peripheral_setup : app unit :=
  cmu_open ;;
  sleep_open ;;
  gpio_open ;;
  si1133_i2c_open ;;
  scheduler_open ;;
  rgb_led_open ;;
  app_letimer_pwm_open (PWM_PER H) (PWM_ACT_PER H) (PWM_ROUTE_0 H) (PWM_ROUTE_1 H)
    (LETIMER0_COMP0_CB H) (LETIMER0_COMP1_CB H) (LETIMER0_UF_CB H) ;;
  letimer_start (LETIMER0 H) true.

Definition scheduled_letimer0_uf_cb : app unit :=
  si1133_read_white_light (SI1133_LIGHT_CB H).

Definition scheduled_letimer0_comp0_cb : app unit :=
  ret tt.

Definition scheduled_letimer0_comp1_cb : app unit :=
  si1133_force_cmd.

(** The comparison is between a [uint32_t] and the macro's value, which
    the usual arithmetic conversions bring to [uint32_t] as well. *)
Definition scheduled_si1133_read_cb : app unit :=
  si1133_data <- si1133_read_result ;;
  if si1133_data <? to_uint32 (EXPECTED_READ_DATA H) then
    leds_enabled (RGB_LED_1 H) (COLOR_BLUE H) true
  else
    leds_enabled (RGB_LED_1 H) (COLOR_BLUE H) false.

End App.

(** ** The scheduled callbacks and the operations of the module *)

(** The four functions the event scheduler dispatches to. *)
Inductive callback :=
| LETIMER0_UF
| LETIMER0_COMP0
| LETIMER0_COMP1
| SI1133_READ.

Definition run_callback (H : app_h) (cb : callback) : app unit :=
  match cb with
  | LETIMER0_UF => scheduled_letimer0_uf_cb H
  | LETIMER0_COMP0 => scheduled_letimer0_comp0_cb
  | LETIMER0_COMP1 => scheduled_letimer0_comp1_cb
  | SI1133_READ => scheduled_si1133_read_cb H
  end.

Fixpoint run_callbacks (H : app_h) (cbs : list callback) : app unit :=
  match cbs with
  | [] => ret tt
  | cb :: cbs' => run_callback H cb ;; run_callbacks H cbs'
  end.

(** Every function defined in app.c. *)
Inductive operation :=
| App_peripheral_setup
| App_letimer_pwm_open (period' act_period : float)
    (out0_route out1_route comp0_cb' comp1_cb' underflow_cb : Z)
| Rgb_led_open
| Scheduled (cb : callback).

Definition run_operation (H : app_h) (o : operation) : app unit :=
  match o with
  | App_peripheral_setup => app_peripheral_setup H
  | App_letimer_pwm_open p a r0 r1 c0 c1 uf =>
      app_letimer_pwm_open H p a r0 r1 c0 c1 uf
  | Rgb_led_open => rgb_led_open
  | Scheduled cb => run_callback H cb
  end.

Fixpoint run_operations (H : app_h) (os : list operation) : app unit :=
  match os with
  | [] => ret tt
  | o :: os' => run_operation H o ;; run_operations H os'
  end.

(** One sampling period as the scheduler drives it: underflow, compare-1,
    then the sensor's data-ready event. *)
Definition cycle : list callback := [LETIMER0_UF; LETIMER0_COMP1; SI1133_READ].

(** ** Reading the call log *)

(** The driver calls a computation adds to the log. *)
Definition issued {A} (m : app A) (w : world) : list call :=
  skipn (length (calls w)) (calls (snd (m w))).

Definition is_leds_enabled (c : call) : bool :=
  match c with Leds_enabled _ _ _ => true | _ => false end.

Definition is_letimer_pwm_open (c : call) : bool :=
  match c with Letimer_pwm_open _ _ => true | _ => false end.

Definition is_letimer_start (c : call) : bool :=
  match c with Letimer_start _ _ => true | _ => false end.

Definition count (p : call -> bool) (l : list call) : nat :=
  length (filter p l).

(** The successive on/off values written to the blue colour of RGB LED 1. *)
Definition blue_writes (H : app_h) (l : list call) : list bool :=
  flat_map (fun c =>
    match c with
    | Leds_enabled leds color en =>
        if (leds =? RGB_LED_1 H) && (color =? COLOR_BLUE H) then [en] else []
    | _ => []
    end) l.

(** What each callback appends to the log. *)
Definition callback_calls (H : app_h) (cb : callback) (w : world) : list call :=
  match cb with
  | LETIMER0_UF => [Si1133_read_white_light (SI1133_LIGHT_CB H)]
  | LETIMER0_COMP0 => []
  | LETIMER0_COMP1 => [Si1133_force_cmd]
  | SI1133_READ =>
      let r := to_uint32 (si1133_results w O) in
      [Si1133_read_result r;
       Leds_enabled (RGB_LED_1 H) (COLOR_BLUE H)
         (r <? to_uint32 (EXPECTED_READ_DATA H))]
  end.

(** What a sequence of callbacks appends to the log. *)
Fixpoint callbacks_calls (H : app_h) (cbs : list callback) (w : world) : list call :=
  match cbs with
  | [] => []
  | cb :: cbs' =>
      callback_calls H cb w ++ callbacks_calls H cbs' (snd (run_callback H cb w))
  end.

(** ** A concrete set of header values

    Period 2.0 s, active period 0.175 s (as binary32 values) and an
    expected reading of 50; the identifiers are small distinct numbers. *)
Definition example_app_h : app_h :=
  {| PWM_PER := S754_finite false 8388608 (-22);
     PWM_ACT_PER := S754_finite false 11744051 (-26);
     PWM_ROUTE_0 := 17;
     PWM_ROUTE_1 := 16;
     LETIMER0 := 0;
     LETIMER0_COMP0_CB := 1;
     LETIMER0_COMP1_CB := 2;
     LETIMER0_UF_CB := 4;
     SI1133_LIGHT_CB := 8;
     EXPECTED_READ_DATA := 50;
     RGB_LED_1 := 1;
     COLOR_RED := 0;
     COLOR_GREEN := 1;
     COLOR_BLUE := 2 |}.

(** A power-on state: nothing logged yet, the sensor will return the
    readings of [rs] in turn and 0 afterwards. *)
Definition boot (rs : list Z) : world :=
  {| RGB_COLOR := 0;
     calls := [];
     si1133_results := fun n => nth n rs 0 |}.

(** ** The sensor transaction and the sleep gate *)

Module Si1133Spec.

(** Modelled from the spec: the Si1133 driver (si1133.c), the I2C state
    machine beneath it and the sleep routines are not part of app.c; only
    their callers are.  The transaction states, the two entry points
    [begin_read] and [take_result], the two bus completions and the
    block count of the sleep gate follow sections 3, 4.3 and 5 of the
    specification. *)
Inductive txn_state :=
| IDLE
| COMMAND_SENT
| AWAITING_RESULT
| RESULT_READY.

Record driver := {
  state : txn_state;
  latched : Z;
  block_count : Z
}.

(** Modelled from the spec: [begin_read] is valid only in [IDLE]; it
    blocks the deep sleep states and moves to [COMMAND_SENT].  [None] is
    the fatal assertion. *)
Definition begin_read (d : driver) : option driver :=
  match state d with
  | IDLE => Some {| state := COMMAND_SENT;
                    latched := latched d;
                    block_count := block_count d + 1 |}
  | _ => None
  end.

(** Modelled from the spec: completion of the bus write. *)
Definition bus_write_done (d : driver) : option driver :=
  match state d with
  | COMMAND_SENT => Some {| state := AWAITING_RESULT;
                            latched := latched d;
                            block_count := block_count d |}
  | _ => None
  end.

(** Modelled from the spec: completion of the bus read latches the
    result register, an unsigned value. *)
Definition bus_read_done (v : Z) (d : driver) : option driver :=
  match state d with
  | AWAITING_RESULT => Some {| state := RESULT_READY;
                               latched := to_uint32 v;
                               block_count := block_count d |}
  | _ => None
  end.

(** Modelled from the spec: [take_result] is valid only in
    [RESULT_READY]; it returns the latched value, goes back to [IDLE]
    and releases the sleep gate. *)
Definition take_result (d : driver) : option (Z * driver) :=
  match state d with
  | RESULT_READY => Some (latched d,
                          {| state := IDLE;
                             latched := latched d;
                             block_count := block_count d - 1 |})
  | _ => None
  end.

Inductive action :=
| Begin_read
| Bus_write_done
| Bus_read_done (v : Z)
| Take_result.

Definition step (d : driver) (a : action) : option driver :=
  match a with
  | Begin_read => begin_read d
  | Bus_write_done => bus_write_done d
  | Bus_read_done v => bus_read_done v d
  | Take_result => option_map snd (take_result d)
  end.

(** A run stops at the first action that is not allowed in the current
    state. *)
Fixpoint run (d : driver) (acts : list action) : option driver :=
  match acts with
  | [] => Some d
  | a :: acts' =>
      match step d a with
      | Some d' => run d' acts'
      | None => None
      end
  end.

(** One full transaction delivering the reading [v]. *)
Definition transaction (v : Z) : list action :=
  [Begin_read; Bus_write_done; Bus_read_done v; Take_result].

(** One transaction per reading of [vs], back to back. *)
Definition transactions (vs : list Z) : list action :=
  flat_map transaction vs.

Definition busy (s : txn_state) : Z :=
  match s with IDLE => 0 | _ => 1 end.

End Si1133Spec.

(** ** Counting callbacks and classifying calls *)

Definition callback_eqb (a b : callback) : bool :=
  match a, b with
  | LETIMER0_UF, LETIMER0_UF => true
  | LETIMER0_COMP0, LETIMER0_COMP0 => true
  | LETIMER0_COMP1, LETIMER0_COMP1 => true
  | SI1133_READ, SI1133_READ => true
  | _, _ => false
  end.

(** How many times [cb] is dispatched in [cbs]. *)
Definition occurrences (cb : callback) (cbs : list callback) : nat :=
  length (filter (callback_eqb cb) cbs).

Definition is_si1133_read_white_light (c : call) : bool :=
  match c with Si1133_read_white_light _ => true | _ => false end.

Definition is_si1133_force_cmd (c : call) : bool :=
  match c with Si1133_force_cmd => true | _ => false end.

Definition is_si1133_read_result (c : call) : bool :=
  match c with Si1133_read_result _ => true | _ => false end.

(** The calls a scheduled callback may make: the three entry points of
    the sensor driver, and the blue colour of RGB LED 1. *)
Definition sensor_or_blue_led (H : app_h) (c : call) : Prop :=
  match c with
  | Si1133_read_white_light cb => cb = SI1133_LIGHT_CB H
  | Si1133_force_cmd => True
  | Si1133_read_result ret => 0 <= ret < uint32_max
  | Leds_enabled leds color _ => leds = RGB_LED_1 H /\ color = COLOR_BLUE H
  | _ => False
  end.

(** The comparison of [scheduled_si1133_read_cb] on the [i]-th value the
    sensor driver is going to return. *)
Definition below_expected (H : app_h) (w : world) (i : nat) : bool :=
  to_uint32 (si1133_results w i) <? to_uint32 (EXPECTED_READ_DATA H).

(** [n] sampling periods in a row. *)
Definition periods (n : nat) : list callback :=
  concat (repeat cycle n).

(** The same run state with another value in [RGB_COLOR]. *)
Definition with_RGB_COLOR (v : Z) (w : world) : world :=
  {| RGB_COLOR := v;
     calls := calls w;
     si1133_results := si1133_results w |}.


(** ** brd_config.h *)

Module BrdConfig.

(** The GPIO ports brd_config.h names (members of the vendor's
    [GPIO_Port_TypeDef] enumeration). *)
Inductive GPIO_Port :=
| gpioPortC
| gpioPortD
| gpioPortF
| gpioPortI
| gpioPortJ.

Definition LED_RED_PORT := gpioPortD.
Definition LED_RED_PIN : Z := 8.
Definition LED_RED_DEFAULT := false.
Definition LED_GREEN_PORT := gpioPortD.
Definition LED_GREEN_PIN : Z := 9.
Definition LED_GREEN_DEFAULT := false.

Definition RGB_ENABLE_PORT := gpioPortJ.
Definition RGB_ENABLE_PIN : Z := 14.
Definition RGB0_PORT := gpioPortI.
Definition RGB0_PIN : Z := 0.
Definition RGB1_PORT := gpioPortI.
Definition RGB1_PIN : Z := 1.
Definition RGB2_PORT := gpioPortI.
Definition RGB2_PIN : Z := 2.
Definition RGB3_PORT := gpioPortI.
Definition RGB3_PIN : Z := 3.
Definition RGB_RED_PORT := gpioPortD.
Definition RGB_RED_PIN : Z := 11.
Definition RGB_GREEN_PORT := gpioPortD.
Definition RGB_GREEN_PIN : Z := 12.
Definition RGB_BLUE_PORT := gpioPortD.
Definition RGB_BLUE_PIN : Z := 13.
Definition RGB_DEFAULT_OFF := false.
Definition COLOR_DEFAULT_OFF := false.

Definition SI1133_SCL_PORT := gpioPortC.
Definition SI1133_SCL_PIN : Z := 5.
Definition SI1133_SCL_DEFAULT := true.
Definition SI1133_SDA_PORT := gpioPortC.
Definition SI1133_SDA_PIN : Z := 4.
Definition SI1133_SDA_DEFAULT := true.
Definition SI1133_SENSOR_EN_PORT := gpioPortF.
Definition SI1133_SENSOR_EN_PIN : Z := 9.
Definition SI1133_SENSOR_EN_DEFAULT := true.

(** Every port/pin pair the header assigns to a signal. *)
Definition pins : list (GPIO_Port * Z) :=
  [(LED_RED_PORT, LED_RED_PIN);
   (LED_GREEN_PORT, LED_GREEN_PIN);
   (RGB_ENABLE_PORT, RGB_ENABLE_PIN);
   (RGB0_PORT, RGB0_PIN);
   (RGB1_PORT, RGB1_PIN);
   (RGB2_PORT, RGB2_PIN);
   (RGB3_PORT, RGB3_PIN);
   (RGB_RED_PORT, RGB_RED_PIN);
   (RGB_GREEN_PORT, RGB_GREEN_PIN);
   (RGB_BLUE_PORT, RGB_BLUE_PIN);
   (SI1133_SCL_PORT, SI1133_SCL_PIN);
   (SI1133_SDA_PORT, SI1133_SDA_PIN);
   (SI1133_SENSOR_EN_PORT, SI1133_SENSOR_EN_PIN)].

End BrdConfig.

(** * Properties *)

(** ** Bookkeeping lemmas on the monad and the log *)

Lemma exec_bind {A B} (m : app A) (k : A -> app B) (w : world) :
  exec (bind m k) w = exec (k (fst (m w))) (snd (m w)).
Proof.
  unfold exec, bind. destruct (m w) as [a w']. reflexivity.
Qed.

Lemma skipn_length_app {A} (l r : list A) :
  skipn (length l) (l ++ r) = r.
Proof.
  induction l as [|x l IH]; simpl; [reflexivity | exact IH].
Qed.

(** When a computation extends the log by [l], [issued] is [l]. *)
Lemma issued_of_app {A} (m : app A) (w : world) (l : list call) :
  calls (snd (m w)) = calls w ++ l -> issued m w = l.
Proof.
  intros E. unfold issued. rewrite E. apply skipn_length_app.
Qed.

Lemma run_callback_calls (H : app_h) (cb : callback) (w : world) :
  calls (exec (run_callback H cb) w) = calls w ++ callback_calls H cb w.
Proof.
  destruct cb; simpl.
  - reflexivity.
  - symmetry. apply app_nil_r.
  - reflexivity.
  - unfold exec, scheduled_si1133_read_cb, bind, si1133_read_result.
    destruct (_ <? _); simpl; rewrite <- app_assoc; reflexivity.
Qed.

Lemma run_callback_RGB_COLOR (H : app_h) (cb : callback) (w : world) :
  RGB_COLOR (exec (run_callback H cb) w) = RGB_COLOR w.
Proof.
  destruct cb; simpl; try reflexivity.
  unfold exec, scheduled_si1133_read_cb, bind, si1133_read_result.
  destruct (_ <? _); reflexivity.
Qed.

Lemma run_callbacks_cons (H : app_h) (cb : callback) (cbs : list callback) (w : world) :
  exec (run_callbacks H (cb :: cbs)) w
  = exec (run_callbacks H cbs) (exec (run_callback H cb) w).
Proof.
  simpl. rewrite exec_bind. reflexivity.
Qed.

Lemma run_callbacks_RGB_COLOR (H : app_h) (cbs : list callback) (w : world) :
  RGB_COLOR (exec (run_callbacks H cbs) w) = RGB_COLOR w.
Proof.
  revert w. induction cbs as [|cb cbs IH]; intros w.
  - reflexivity.
  - rewrite run_callbacks_cons, IH. apply run_callback_RGB_COLOR.
Qed.

Lemma run_callbacks_issued_Forall (H : app_h) (P : call -> Prop) :
  (forall cb w, Forall P (callback_calls H cb w)) ->
  forall cbs w, exists l,
    calls (exec (run_callbacks H cbs) w) = calls w ++ l /\ Forall P l.
Proof.
  intros HP cbs. induction cbs as [|cb cbs IH]; intros w.
  - exists []. split; [symmetry; apply app_nil_r | constructor].
  - rewrite run_callbacks_cons.
    destruct (IH (exec (run_callback H cb) w)) as [l [E F]].
    exists (callback_calls H cb w ++ l). split.
    + rewrite E, run_callback_calls, app_assoc. reflexivity.
    + apply Forall_app. split; [apply HP | exact F].
Qed.

Lemma count_Forall_false (p : call -> bool) (l : list call) :
  Forall (fun c => p c = false) l -> count p l = O.
Proof.
  unfold count. induction 1 as [|c l Hc _ IH]; simpl.
  - reflexivity.
  - rewrite Hc. exact IH.
Qed.

Lemma count_app (p : call -> bool) (l r : list call) :
  count p (l ++ r) = (count p l + count p r)%nat.
Proof.
  unfold count. rewrite filter_app. apply length_app.
Qed.

(** What [app_peripheral_setup] appends to the log. *)
Lemma app_peripheral_setup_calls (H : app_h) (w : world) :
  calls (exec (app_peripheral_setup H) w)
  = calls w ++
    [Cmu_open; Sleep_open; Gpio_open; Si1133_i2c_open; Scheduler_open; Rgb_init;
     Letimer_pwm_open (LETIMER0 H)
       (app_letimer_pwm_struct (PWM_PER H) (PWM_ACT_PER H)
          (to_uint32 (PWM_ROUTE_0 H)) (to_uint32 (PWM_ROUTE_1 H))
          (to_uint32 (LETIMER0_COMP0_CB H)) (to_uint32 (LETIMER0_COMP1_CB H))
          (to_uint32 (LETIMER0_UF_CB H)));
     Letimer_start (LETIMER0 H) true].
Proof.
  unfold exec, app_peripheral_setup, rgb_led_open, app_letimer_pwm_open.
  cbn -[to_uint32]. repeat rewrite <- app_assoc. reflexivity.
Qed.

Lemma blue_writes_own (H : app_h) (en : bool) :
  blue_writes H [Leds_enabled (RGB_LED_1 H) (COLOR_BLUE H) en] = [en].
Proof.
  unfold blue_writes. simpl. rewrite !Z.eqb_refl. reflexivity.
Qed.

Lemma to_uint32_small (z : Z) : 0 <= z < uint32_max -> to_uint32 z = z.
Proof.
  intros Hz. unfold to_uint32. apply Z.mod_small. exact Hz.
Qed.

(** ** The sensor-data-ready callback *)

(** C1: [scheduled_si1133_read_cb] takes the reading from
    [si1133_read_result] and then makes exactly one LED call, on the blue
    colour of RGB LED 1: on when the reading is strictly below
    [EXPECTED_READ_DATA], off when it is equal or above.  The macro's
    value is assumed to be representable as a [uint32_t]. *)
Theorem scheduled_si1133_read_cb_threshold (H : app_h) (w : world) :
  0 <= EXPECTED_READ_DATA H < uint32_max ->
  let reading := to_uint32 (si1133_results w O) in
  let log := issued (scheduled_si1133_read_cb H) w in
  log = [Si1133_read_result reading;
         Leds_enabled (RGB_LED_1 H) (COLOR_BLUE H)
           (reading <? EXPECTED_READ_DATA H)]
  /\ (reading < EXPECTED_READ_DATA H -> blue_writes H log = [true])
  /\ (EXPECTED_READ_DATA H <= reading -> blue_writes H log = [false])
  /\ (reading = EXPECTED_READ_DATA H -> blue_writes H log = [false]).
Proof.
  intros HT reading log.
  assert (E : log = [Si1133_read_result reading;
                     Leds_enabled (RGB_LED_1 H) (COLOR_BLUE H)
                       (reading <? EXPECTED_READ_DATA H)]).
  { unfold log. apply issued_of_app.
    change (calls (exec (run_callback H SI1133_READ) w) = calls w ++
            [Si1133_read_result reading;
             Leds_enabled (RGB_LED_1 H) (COLOR_BLUE H)
               (reading <? EXPECTED_READ_DATA H)]).
    rewrite run_callback_calls. simpl.
    rewrite (to_uint32_small (EXPECTED_READ_DATA H) HT). reflexivity. }
  split; [exact E|].
  assert (B : blue_writes H log = [reading <? EXPECTED_READ_DATA H]).
  { rewrite E. change (blue_writes H [Si1133_read_result reading;
       Leds_enabled (RGB_LED_1 H) (COLOR_BLUE H) (reading <? EXPECTED_READ_DATA H)])
      with (blue_writes H [Leds_enabled (RGB_LED_1 H) (COLOR_BLUE H)
                             (reading <? EXPECTED_READ_DATA H)]).
    apply blue_writes_own. }
  rewrite B. repeat split; intros Hr.
  - apply Z.ltb_lt in Hr. rewrite Hr. reflexivity.
  - apply Z.ltb_ge in Hr. rewrite Hr. reflexivity.
  - rewrite Hr, Z.ltb_irrefl. reflexivity.
Qed.

Lemma scheduled_si1133_read_cb_threshold_witness :
  0 <= EXPECTED_READ_DATA example_app_h < uint32_max
  /\ blue_writes example_app_h
       (issued (scheduled_si1133_read_cb example_app_h) (boot [49])) = [true]
  /\ blue_writes example_app_h
       (issued (scheduled_si1133_read_cb example_app_h) (boot [50])) = [false].
Proof.
  assert (HT : 0 <= EXPECTED_READ_DATA example_app_h < uint32_max)
    by (split; [apply Z.leb_le | apply Z.ltb_lt]; reflexivity).
  split; [exact HT|]. split.
  - apply (scheduled_si1133_read_cb_threshold example_app_h (boot [49]) HT).
    reflexivity.
  - apply (scheduled_si1133_read_cb_threshold example_app_h (boot [50]) HT).
    reflexivity.
Defined.

(** ** The timer callbacks *)

(** C2: [scheduled_letimer0_uf_cb] makes exactly one driver call,
    [si1133_read_white_light(SI1133_LIGHT_CB)], which starts the sensor
    read; it leaves [RGB_COLOR] as it was and makes no LED call. *)
Theorem scheduled_letimer0_uf_cb_starts_read (H : app_h) (w : world) :
  issued (scheduled_letimer0_uf_cb H) w
    = [Si1133_read_white_light (SI1133_LIGHT_CB H)]
  /\ RGB_COLOR (exec (scheduled_letimer0_uf_cb H) w) = RGB_COLOR w
  /\ count is_leds_enabled (issued (scheduled_letimer0_uf_cb H) w) = O
  /\ blue_writes H (issued (scheduled_letimer0_uf_cb H) w) = [].
Proof.
  assert (E : issued (scheduled_letimer0_uf_cb H) w
              = [Si1133_read_white_light (SI1133_LIGHT_CB H)]).
  { apply issued_of_app. reflexivity. }
  rewrite E. repeat split.
Qed.

(** C3: [scheduled_letimer0_comp1_cb] appends the single call
    [si1133_force_cmd()] to the log and changes nothing else: the value of
    [RGB_COLOR] and the readings still held by the sensor driver are the
    same, and neither a result read nor an LED call is made. *)
Theorem scheduled_letimer0_comp1_cb_only_force_cmd (w : world) :
  exec scheduled_letimer0_comp1_cb w
    = {| RGB_COLOR := RGB_COLOR w;
         calls := calls w ++ [Si1133_force_cmd];
         si1133_results := si1133_results w |}
  /\ issued scheduled_letimer0_comp1_cb w = [Si1133_force_cmd].
Proof.
  split; [reflexivity|]. apply issued_of_app. reflexivity.
Qed.

(** ** The timer configuration *)

(** C4: whatever the arguments, [app_letimer_pwm_open] makes one call to
    [letimer_pwm_open] on [LETIMER0] with a structure whose underflow and
    compare-1 interrupt enables are true and whose compare-0 interrupt
    enable is false. *)
Theorem app_letimer_pwm_open_irq_enables
    (H : app_h) (period' act_period : float)
    (out0_route out1_route comp0_cb' comp1_cb' underflow_cb : Z) (w : world) :
  exists s : APP_LETIMER_PWM_TypeDef,
    issued (app_letimer_pwm_open H period' act_period out0_route out1_route
              comp0_cb' comp1_cb' underflow_cb) w
      = [Letimer_pwm_open (LETIMER0 H) s]
    /\ uf_irq_enable s = true
    /\ comp1_irq_enable s = true
    /\ comp0_irq_enable s = false.
Proof.
  eexists. split.
  - apply issued_of_app. reflexivity.
  - repeat split.
Qed.

(** C9: whatever the arguments, the structure [app_letimer_pwm_open]
    hands to [letimer_pwm_open] has both output pin enables false, while
    it does carry the two route locations it was given. *)
Theorem app_letimer_pwm_open_out_pins_disabled
    (H : app_h) (period' act_period : float)
    (out0_route out1_route comp0_cb' comp1_cb' underflow_cb : Z) (w : world) :
  exists s : APP_LETIMER_PWM_TypeDef,
    issued (app_letimer_pwm_open H period' act_period out0_route out1_route
              comp0_cb' comp1_cb' underflow_cb) w
      = [Letimer_pwm_open (LETIMER0 H) s]
    /\ out_pin_0_en s = false
    /\ out_pin_1_en s = false
    /\ out_pin_route0 s = to_uint32 out0_route
    /\ out_pin_route1 s = to_uint32 out1_route.
Proof.
  eexists. split.
  - apply issued_of_app. reflexivity.
  - repeat split.
Qed.

(** ** The scenario of the specification *)

Lemma run_callbacks_calls (H : app_h) (cbs : list callback) (w : world) :
  calls (exec (run_callbacks H cbs) w) = calls w ++ callbacks_calls H cbs w.
Proof.
  revert w. induction cbs as [|cb cbs IH]; intros w.
  - symmetry. apply app_nil_r.
  - rewrite run_callbacks_cons, IH, run_callback_calls, <- app_assoc.
    reflexivity.
Qed.

Lemma blue_writes_app (H : app_h) (l r : list call) :
  blue_writes H (l ++ r) = blue_writes H l ++ blue_writes H r.
Proof.
  unfold blue_writes. apply flat_map_app.
Qed.

(** Unfolds the log one callback at a time, feeding in the threshold and
    the readings as they are reached. *)
Ltac replay HT R0 R1 R2 R3 :=
  repeat progress (cbn -[to_uint32 Z.ltb blue_writes];
                   rewrite ?HT, ?R0, ?R1, ?R2, ?R3;
                   change (to_uint32 50) with 50;
                   change (to_uint32 10) with 10;
                   change (to_uint32 60) with 60;
                   change (to_uint32 49) with 49;
                   cbn -[to_uint32 blue_writes]);
  unfold blue_writes; simpl; rewrite !Z.eqb_refl; reflexivity.

(** C5: with an expected reading of 50 and a sensor that returns 10, 60,
    49 and 50 in four consecutive periods, the blue LED is written on,
    off, on, off; this holds both for the four data-ready callbacks run
    on their own and for four full periods (underflow, compare-1,
    data-ready). *)
Theorem scenario_indicator_states (H : app_h) (w : world) :
  EXPECTED_READ_DATA H = 50 ->
  map (si1133_results w) [0; 1; 2; 3]%nat = [10; 60; 49; 50] ->
  blue_writes H
    (issued (run_callbacks H [SI1133_READ; SI1133_READ; SI1133_READ; SI1133_READ]) w)
    = [true; false; true; false]
  /\ blue_writes H (issued (run_callbacks H (cycle ++ cycle ++ cycle ++ cycle)) w)
    = [true; false; true; false].
Proof.
  intros HT Hr. injection Hr as R0 R1 R2 R3.
  split.
  - rewrite (issued_of_app _ _ _ (run_callbacks_calls H _ w)).
    replay HT R0 R1 R2 R3.
  - rewrite (issued_of_app _ _ _ (run_callbacks_calls H _ w)).
    replay HT R0 R1 R2 R3.
Qed.

Lemma scenario_indicator_states_witness :
  blue_writes example_app_h
    (issued (run_callbacks example_app_h (cycle ++ cycle ++ cycle ++ cycle))
       (boot [10; 60; 49; 50]))
    = [true; false; true; false].
Proof.
  apply (scenario_indicator_states example_app_h (boot [10; 60; 49; 50]));
    reflexivity.
Defined.

(** ** Who writes the LED *)

Lemma issued_run_callback (H : app_h) (cb : callback) (w : world) :
  issued (run_callback H cb) w = callback_calls H cb w.
Proof.
  apply issued_of_app. apply run_callback_calls.
Qed.

(** C6: among all functions of app.c, the data-ready callback is the one
    and only that makes an LED call; it makes exactly one, and every
    other function makes none. *)
Theorem leds_written_only_by_read_cb (H : app_h) (o : operation) (w : world) :
  (o = Scheduled SI1133_READ ->
     count is_leds_enabled (issued (run_operation H o) w) = 1%nat)
  /\ (o <> Scheduled SI1133_READ ->
     count is_leds_enabled (issued (run_operation H o) w) = 0%nat
     /\ blue_writes H (issued (run_operation H o) w) = []).
Proof.
  split.
  - intros ->. cbv [run_operation].
    rewrite issued_run_callback. reflexivity.
  - intros Ho. destruct o as [| p a r0 r1 c0 c1 uf | | cb]; cbv [run_operation].
    + rewrite (issued_of_app _ _ _ (app_peripheral_setup_calls H w)).
      split; reflexivity.
    + erewrite issued_of_app by (unfold app_letimer_pwm_open; reflexivity).
      split; reflexivity.
    + erewrite issued_of_app by (unfold rgb_led_open; reflexivity).
      split; reflexivity.
    + rewrite issued_run_callback.
      destruct cb; try (split; reflexivity). contradiction Ho. reflexivity.
Qed.

Lemma leds_written_only_by_read_cb_witness :
  count is_leds_enabled
    (issued (run_operation example_app_h (Scheduled SI1133_READ)) (boot [10])) = 1%nat
  /\ count is_leds_enabled
       (issued (run_operation example_app_h App_peripheral_setup) (boot [])) = 0%nat.
Proof.
  split.
  - apply (leds_written_only_by_read_cb example_app_h (Scheduled SI1133_READ) (boot [10])).
    reflexivity.
  - apply (leds_written_only_by_read_cb example_app_h App_peripheral_setup (boot [])).
    discriminate.
Defined.

(** ** Start-up order *)

Lemma callback_calls_no_pwm_open (H : app_h) (cb : callback) (w : world) :
  Forall (fun c => is_letimer_pwm_open c = false) (callback_calls H cb w).
Proof.
  destruct cb; simpl; repeat constructor.
Qed.

(** C8: the log of [app_peripheral_setup], followed by any sequence of
    scheduled callbacks, has the shape
    [pre ++ [letimer_pwm_open(LETIMER0, s); letimer_start(LETIMER0, true)] ++ post]
    where [s] has its enable field false, [pre] contains neither a timer
    configuration nor a timer start, and [post] contains no timer
    configuration: the timer is configured once, before it is started, and
    is not configured again afterwards. *)
Theorem timer_configured_once_before_start
    (H : app_h) (cbs : list callback) (w : world) :
  exists (pre post : list call) (s : APP_LETIMER_PWM_TypeDef),
    issued (app_peripheral_setup H ;; run_callbacks H cbs) w
      = pre ++ [Letimer_pwm_open (LETIMER0 H) s; Letimer_start (LETIMER0 H) true]
            ++ post
    /\ enable s = false
    /\ count is_letimer_pwm_open pre = 0%nat
    /\ count is_letimer_start pre = 0%nat
    /\ count is_letimer_pwm_open post = 0%nat
    /\ count is_letimer_pwm_open
         (issued (app_peripheral_setup H ;; run_callbacks H cbs) w) = 1%nat.
Proof.
  destruct (run_callbacks_issued_Forall H _ (callback_calls_no_pwm_open H) cbs
              (exec (app_peripheral_setup H) w)) as [post [E F]].
  apply count_Forall_false in F.
  assert (L : issued (app_peripheral_setup H ;; run_callbacks H cbs) w
    = [Cmu_open; Sleep_open; Gpio_open; Si1133_i2c_open; Scheduler_open; Rgb_init]
      ++ [Letimer_pwm_open (LETIMER0 H)
            (app_letimer_pwm_struct (PWM_PER H) (PWM_ACT_PER H)
               (to_uint32 (PWM_ROUTE_0 H)) (to_uint32 (PWM_ROUTE_1 H))
               (to_uint32 (LETIMER0_COMP0_CB H)) (to_uint32 (LETIMER0_COMP1_CB H))
               (to_uint32 (LETIMER0_UF_CB H)));
          Letimer_start (LETIMER0 H) true] ++ post).
  { apply issued_of_app.
    change (calls (exec (app_peripheral_setup H ;; run_callbacks H cbs) w) = calls w ++
      [Cmu_open; Sleep_open; Gpio_open; Si1133_i2c_open; Scheduler_open; Rgb_init]
      ++ [Letimer_pwm_open (LETIMER0 H)
            (app_letimer_pwm_struct (PWM_PER H) (PWM_ACT_PER H)
               (to_uint32 (PWM_ROUTE_0 H)) (to_uint32 (PWM_ROUTE_1 H))
               (to_uint32 (LETIMER0_COMP0_CB H)) (to_uint32 (LETIMER0_COMP1_CB H))
               (to_uint32 (LETIMER0_UF_CB H)));
          Letimer_start (LETIMER0 H) true] ++ post).
    rewrite exec_bind.
    change (snd (app_peripheral_setup H w)) with (exec (app_peripheral_setup H) w).
    rewrite E, app_peripheral_setup_calls, <- app_assoc. reflexivity. }
  eexists _, post, _. split; [exact L|].
  split; [reflexivity|]. split; [reflexivity|]. split; [reflexivity|].
  split; [exact F|].
  rewrite L, !count_app, F. reflexivity.
Qed.

(** ** The colour-cycle state *)

Lemma run_operation_RGB_COLOR (H : app_h) (o : operation) (w : world) :
  RGB_COLOR w = 0 -> RGB_COLOR (exec (run_operation H o) w) = 0.
Proof.
  intros Hw. destruct o as [| p a r0 r1 c0 c1 uf | | cb]; cbv [run_operation].
  - reflexivity.
  - exact Hw.
  - reflexivity.
  - rewrite run_callback_RGB_COLOR. exact Hw.
Qed.

Lemma run_operations_RGB_COLOR (H : app_h) (os : list operation) (w : world) :
  RGB_COLOR w = 0 -> RGB_COLOR (exec (run_operations H os) w) = 0.
Proof.
  revert w. induction os as [|o os IH]; intros w Hw.
  - exact Hw.
  - simpl. rewrite exec_bind. apply IH. apply run_operation_RGB_COLOR. exact Hw.
Qed.

(** C10: once [rgb_led_open] has set [RGB_COLOR] to 0, it is 0 after
    every callback of every sequence of scheduled callbacks; the same
    holds for every sequence of functions of app.c, the set-up functions
    included. *)
Theorem RGB_COLOR_stays_zero
    (H : app_h) (cbs : list callback) (os : list operation) (n : nat) (w : world) :
  RGB_COLOR (exec rgb_led_open w) = 0
  /\ RGB_COLOR (exec (run_callbacks H (firstn n cbs)) (exec rgb_led_open w)) = 0
  /\ RGB_COLOR (exec (run_operations H (firstn n os)) (exec rgb_led_open w)) = 0.
Proof.
  split; [reflexivity|]. split.
  - rewrite run_callbacks_RGB_COLOR. reflexivity.
  - apply run_operations_RGB_COLOR. reflexivity.
Qed.

(** ** The sleep gate across a sensor transaction *)

Lemma step_block_count (d d' : Si1133Spec.driver) (a : Si1133Spec.action) :
  Si1133Spec.step d a = Some d' ->
  Si1133Spec.block_count d' - Si1133Spec.busy (Si1133Spec.state d')
  = Si1133Spec.block_count d - Si1133Spec.busy (Si1133Spec.state d).
Proof.
  destruct d as [s l c].
  destruct a; destruct s; simpl; intros E; try discriminate;
    injection E as <-; simpl; lia.
Qed.

Lemma run_block_count (acts : list Si1133Spec.action) (d d' : Si1133Spec.driver) :
  Si1133Spec.run d acts = Some d' ->
  Si1133Spec.block_count d' - Si1133Spec.busy (Si1133Spec.state d')
  = Si1133Spec.block_count d - Si1133Spec.busy (Si1133Spec.state d).
Proof.
  revert d. induction acts as [|a acts IH]; intros d; simpl.
  - intros E. injection E as <-. reflexivity.
  - destruct (Si1133Spec.step d a) as [d1|] eqn:S1; [|discriminate].
    intros E. rewrite (IH _ E). apply (step_block_count _ _ _ S1).
Qed.

Lemma busy_range (s : Si1133Spec.txn_state) : 0 <= Si1133Spec.busy s <= 1.
Proof.
  destruct s; simpl; lia.
Qed.

Lemma run_app (d : Si1133Spec.driver) (l r : list Si1133Spec.action) :
  Si1133Spec.run d (l ++ r)
  = match Si1133Spec.run d l with
    | Some d' => Si1133Spec.run d' r
    | None => None
    end.
Proof.
  revert d. induction l as [|a l IH]; intros d; simpl.
  - reflexivity.
  - destruct (Si1133Spec.step d a); [apply IH | reflexivity].
Qed.

Lemma run_transactions (vs : list Z) (d : Si1133Spec.driver) :
  Si1133Spec.state d = Si1133Spec.IDLE ->
  exists d', Si1133Spec.run d (Si1133Spec.transactions vs) = Some d'
             /\ Si1133Spec.state d' = Si1133Spec.IDLE.
Proof.
  revert d. induction vs as [|v vs IH]; intros d Hd.
  - exists d. split; [reflexivity | exact Hd].
  - change (Si1133Spec.transactions (v :: vs))
      with (Si1133Spec.transaction v ++ Si1133Spec.transactions vs).
    rewrite run_app.
    destruct d as [s l c]. simpl in Hd. subst s. simpl.
    apply IH. reflexivity.
Qed.

(** C7: in the transaction model of the specification, started idle with
    a non-negative block count:
    - [begin_read] succeeds and returns with the count raised by one;
    - no step lowers the count except [take_result], which lowers it by
      one and lands in [IDLE];
    - the count is non-negative in every state a run reaches, and at
      least one while a transaction is outstanding;
    - any number of full transactions run to completion and leave the
      count at its initial value. *)
Theorem sleep_gate_block_count (d0 : Si1133Spec.driver) :
  Si1133Spec.state d0 = Si1133Spec.IDLE ->
  0 <= Si1133Spec.block_count d0 ->
  (exists d1, Si1133Spec.begin_read d0 = Some d1
              /\ Si1133Spec.block_count d1 = Si1133Spec.block_count d0 + 1)
  /\ (forall d a d',
        Si1133Spec.step d a = Some d' ->
        Si1133Spec.block_count d' < Si1133Spec.block_count d ->
        a = Si1133Spec.Take_result
        /\ Si1133Spec.state d' = Si1133Spec.IDLE
        /\ Si1133Spec.block_count d' = Si1133Spec.block_count d - 1)
  /\ (forall acts d,
        Si1133Spec.run d0 acts = Some d ->
        0 <= Si1133Spec.block_count d
        /\ (Si1133Spec.state d <> Si1133Spec.IDLE ->
            Si1133Spec.block_count d = Si1133Spec.block_count d0 + 1))
  /\ (forall vs, exists d,
        Si1133Spec.run d0 (Si1133Spec.transactions vs) = Some d
        /\ Si1133Spec.state d = Si1133Spec.IDLE
        /\ Si1133Spec.block_count d = Si1133Spec.block_count d0).
Proof.
  intros Hs Hc. split; [|split; [|split]].
  - unfold Si1133Spec.begin_read. rewrite Hs. eexists. split; reflexivity.
  - intros [s l c] a d' E Hlt.
    destruct a; destruct s; simpl in *; try discriminate;
      injection E as <-; simpl in *; try lia.
    repeat split.
  - intros acts d R. apply run_block_count in R. rewrite Hs in R. simpl in R.
    split.
    + pose proof (busy_range (Si1133Spec.state d)). lia.
    + intros Hn. destruct (Si1133Spec.state d); simpl in R;
        [contradiction Hn; reflexivity | lia ..].
  - intros vs. destruct (run_transactions vs d0 Hs) as [d [R I]].
    exists d. split; [exact R|]. split; [exact I|].
    apply run_block_count in R. rewrite Hs, I in R. simpl in R. lia.
Qed.

Lemma sleep_gate_block_count_witness :
  let d0 := {| Si1133Spec.state := Si1133Spec.IDLE;
               Si1133Spec.latched := 0;
               Si1133Spec.block_count := 0 |} in
  exists d,
    Si1133Spec.run d0 (Si1133Spec.transactions [10; 60; 49; 50]) = Some d
    /\ Si1133Spec.state d = Si1133Spec.IDLE
    /\ Si1133Spec.block_count d = Si1133Spec.block_count d0.
Proof.
  intros d0.
  apply (sleep_gate_block_count d0); [reflexivity | simpl; lia].
Defined.

(** * Further properties of app.c *)

(** ** Sequences of callbacks *)

Lemma occurrences_cons (c cb : callback) (cbs : list callback) :
  occurrences c (cb :: cbs)
  = ((if callback_eqb c cb then 1 else 0) + occurrences c cbs)%nat.
Proof.
  unfold occurrences. simpl. destruct (callback_eqb c cb); reflexivity.
Qed.

Lemma issued_run_callbacks (H : app_h) (cbs : list callback) (w : world) :
  issued (run_callbacks H cbs) w = callbacks_calls H cbs w.
Proof.
  apply issued_of_app. apply run_callbacks_calls.
Qed.

(** Only the data-ready callback consumes a value of the sensor driver. *)
Lemma run_callback_si1133_results (H : app_h) (cb : callback) (w : world) (i : nat) :
  si1133_results (snd (run_callback H cb w)) i
  = si1133_results w (if callback_eqb SI1133_READ cb then S i else i).
Proof.
  destruct cb; simpl; try reflexivity.
  unfold scheduled_si1133_read_cb, bind, si1133_read_result.
  destruct (_ <? _); reflexivity.
Qed.

Lemma blue_writes_callback_calls (H : app_h) (cb : callback) (w : world) :
  blue_writes H (callback_calls H cb w)
  = if callback_eqb SI1133_READ cb then [below_expected H w 0] else [].
Proof.
  destruct cb; try reflexivity.
  unfold blue_writes, below_expected. simpl. rewrite !Z.eqb_refl. reflexivity.
Qed.

Lemma blue_writes_callbacks_calls (H : app_h) (cbs : list callback) (w : world) :
  blue_writes H (callbacks_calls H cbs w)
  = map (below_expected H w) (seq 0 (occurrences SI1133_READ cbs)).
Proof.
  revert w. induction cbs as [|cb cbs IH]; intros w.
  - reflexivity.
  - change (callbacks_calls H (cb :: cbs) w)
      with (callback_calls H cb w
            ++ callbacks_calls H cbs (snd (run_callback H cb w))).
    rewrite blue_writes_app, blue_writes_callback_calls, IH, occurrences_cons.
    destruct (callback_eqb SI1133_READ cb) eqn:E.
    + simpl. f_equal. rewrite <- seq_shift, map_map.
      apply map_ext. intros i. unfold below_expected.
      rewrite run_callback_si1133_results, E. reflexivity.
    + simpl. apply map_ext. intros i. unfold below_expected.
      rewrite run_callback_si1133_results, E. reflexivity.
Qed.


Lemma count_callbacks_calls (H : app_h) (p : call -> bool) (cb0 : callback) :
  (forall cb w,
     count p (callback_calls H cb w) = if callback_eqb cb0 cb then 1%nat else 0%nat) ->
  forall cbs w, count p (callbacks_calls H cbs w) = occurrences cb0 cbs.
Proof.
  intros Hp cbs. induction cbs as [|cb cbs IH]; intros w.
  - reflexivity.
  - change (callbacks_calls H (cb :: cbs) w)
      with (callback_calls H cb w
            ++ callbacks_calls H cbs (snd (run_callback H cb w))).
    rewrite count_app, Hp, IH, occurrences_cons.
    destruct (callback_eqb cb0 cb); reflexivity.
Qed.

(** X2: in the log of any sequence of scheduled callbacks, the number of
    [si1133_read_white_light] calls is the number of underflow callbacks,
    the number of [si1133_force_cmd] calls is the number of compare-1
    callbacks, and the numbers of [si1133_read_result] calls and of LED
    calls are both the number of data-ready callbacks. *)
Theorem driver_calls_match_callbacks (H : app_h) (cbs : list callback) (w : world) :
  let log := issued (run_callbacks H cbs) w in
  count is_si1133_read_white_light log = occurrences LETIMER0_UF cbs
  /\ count is_si1133_force_cmd log = occurrences LETIMER0_COMP1 cbs
  /\ count is_si1133_read_result log = occurrences SI1133_READ cbs
  /\ count is_leds_enabled log = occurrences SI1133_READ cbs
  /\ length log
     = (occurrences LETIMER0_UF cbs + occurrences LETIMER0_COMP1 cbs
        + 2 * occurrences SI1133_READ cbs)%nat.
Proof.
  intros log. unfold log. rewrite issued_run_callbacks.
  repeat split.
  - apply count_callbacks_calls. intros [] w'; reflexivity.
  - apply count_callbacks_calls. intros [] w'; reflexivity.
  - apply count_callbacks_calls. intros [] w'; reflexivity.
  - apply count_callbacks_calls. intros [] w'; reflexivity.
  - clear log. revert w. induction cbs as [|cb cbs IH]; intros w.
    + reflexivity.
    + change (callbacks_calls H (cb :: cbs) w)
        with (callback_calls H cb w
              ++ callbacks_calls H cbs (snd (run_callback H cb w))).
      rewrite length_app, IH, !occurrences_cons.
      destruct cb; simpl; lia.
Qed.

(** X3: [scheduled_letimer0_comp0_cb] leaves the run state untouched, so
    dropping every compare-0 callback from a sequence of callbacks gives
    the same final state. *)
Theorem comp0_callbacks_are_void (H : app_h) (cbs : list callback) (w : world) :
  exec (run_callbacks H cbs) w
  = exec (run_callbacks H
            (filter (fun cb => negb (callback_eqb LETIMER0_COMP0 cb)) cbs)) w.
Proof.
  revert w. induction cbs as [|cb cbs IH]; intros w.
  - reflexivity.
  - rewrite run_callbacks_cons, IH. destruct cb; simpl filter;
      try (rewrite run_callbacks_cons; reflexivity).
    reflexivity.
Qed.

Lemma callback_calls_sensor_or_blue_led (H : app_h) (cb : callback) (w : world) :
  Forall (sensor_or_blue_led H) (callback_calls H cb w).
Proof.
  destruct cb; simpl; repeat constructor.
  - apply Z.mod_pos_bound. reflexivity.
  - apply Z.mod_pos_bound. reflexivity.
Qed.

(** X4: whatever the sequence of scheduled callbacks, every driver call
    it makes is one of [si1133_read_white_light(SI1133_LIGHT_CB)],
    [si1133_force_cmd()], [si1133_read_result()] or
    [leds_enabled(RGB_LED_1, COLOR_BLUE, _)]: no driver is opened again,
    the timer is neither configured nor started, and no LED colour other
    than blue is touched. *)
Theorem callbacks_only_sensor_and_blue_led
    (H : app_h) (cbs : list callback) (w : world) :
  Forall (sensor_or_blue_led H) (issued (run_callbacks H cbs) w)
  /\ count is_letimer_start (issued (run_callbacks H cbs) w) = 0%nat.
Proof.
  destruct (run_callbacks_issued_Forall H _ (callback_calls_sensor_or_blue_led H)
              cbs w) as [l [E F]].
  rewrite (issued_of_app _ _ _ E). split; [exact F|].
  apply count_Forall_false. revert F. apply Forall_impl.
  intros c. destruct c; simpl; intros Hc; try reflexivity; contradiction.
Qed.

(** ** Whole sampling periods *)




(** X6: with [EXPECTED_READ_DATA] equal to 0 no reading is below it, so
    whatever the sensor returns and whatever the sequence of callbacks,
    every write to the blue LED switches it off. *)
Theorem zero_threshold_never_lights (H : app_h) (cbs : list callback) (w : world) :
  EXPECTED_READ_DATA H = 0 ->
  Forall (fun en => en = false) (blue_writes H (issued (run_callbacks H cbs) w)).
Proof.
  intros HT. rewrite issued_run_callbacks, blue_writes_callbacks_calls.
  apply Forall_map, Forall_forall. intros i _.
  unfold below_expected. rewrite HT. apply Z.ltb_ge.
  apply Z.mod_pos_bound. reflexivity.
Qed.

Lemma zero_threshold_never_lights_witness :
  let H0 := {| PWM_PER := PWM_PER example_app_h;
               PWM_ACT_PER := PWM_ACT_PER example_app_h;
               PWM_ROUTE_0 := 17; PWM_ROUTE_1 := 16; LETIMER0 := 0;
               LETIMER0_COMP0_CB := 1; LETIMER0_COMP1_CB := 2;
               LETIMER0_UF_CB := 4; SI1133_LIGHT_CB := 8;
               EXPECTED_READ_DATA := 0;
               RGB_LED_1 := 1; COLOR_RED := 0; COLOR_GREEN := 1;
               COLOR_BLUE := 2 |} in
  Forall (fun en => en = false)
    (blue_writes H0 (issued (run_callbacks H0 (periods 2)) (boot [0; 7]))).
Proof.
  intros H0.
  apply (zero_threshold_never_lights H0 (periods 2) (boot [0; 7])).
  reflexivity.
Defined.

(** ** The colour state is dead *)

Lemma run_callback_with_RGB_COLOR (H : app_h) (cb : callback) (v : Z) (w : world) :
  exec (run_callback H cb) (with_RGB_COLOR v w)
  = with_RGB_COLOR v (exec (run_callback H cb) w).
Proof.
  destruct cb; try reflexivity.
  unfold exec, run_callback, scheduled_si1133_read_cb, bind, si1133_read_result.
  simpl. destruct (_ <? _); reflexivity.
Qed.

Lemma run_operation_with_RGB_COLOR (H : app_h) (o : operation) (v : Z) (w : world) :
  exists v',
    exec (run_operation H o) (with_RGB_COLOR v w)
    = with_RGB_COLOR v' (exec (run_operation H o) w).
Proof.
  destruct o as [| p a r0 r1 c0 c1 uf | | cb]; cbv [run_operation].
  - exists 0. reflexivity.
  - exists v. reflexivity.
  - exists 0. reflexivity.
  - exists v. apply run_callback_with_RGB_COLOR.
Qed.

Lemma run_operations_with_RGB_COLOR
    (H : app_h) (os : list operation) (v : Z) (w : world) :
  exists v',
    exec (run_operations H os) (with_RGB_COLOR v w)
    = with_RGB_COLOR v' (exec (run_operations H os) w).
Proof.
  revert v w. induction os as [|o os IH]; intros v w.
  - exists v. reflexivity.
  - simpl run_operations. rewrite !exec_bind.
    change (snd (run_operation H o (with_RGB_COLOR v w)))
      with (exec (run_operation H o) (with_RGB_COLOR v w)).
    destruct (run_operation_with_RGB_COLOR H o v w) as [v1 E1].
    rewrite E1. apply IH.
Qed.

(** X7: no function of app.c ever reads [RGB_COLOR]: for every sequence
    of functions of the module, the driver calls made and the sensor
    values consumed are the same whatever value [RGB_COLOR] holds at the
    start. *)
Theorem RGB_COLOR_never_read
    (H : app_h) (os : list operation) (v : Z) (w : world) :
  calls (exec (run_operations H os) (with_RGB_COLOR v w))
  = calls (exec (run_operations H os) w)
  /\ (forall i,
        si1133_results (exec (run_operations H os) (with_RGB_COLOR v w)) i
        = si1133_results (exec (run_operations H os) w) i).
Proof.
  destruct (run_operations_with_RGB_COLOR H os v w) as [v' E].
  rewrite E. split; reflexivity.
Qed.

(** ** Start-up *)

(** X8: [app_peripheral_setup] opens the drivers in the order clock
    tree, sleep, GPIO, Si1133 I2C, scheduler, RGB LED, then configures
    LETIMER0 and only then starts it, as its last call; it leaves
    [RGB_COLOR] at 0 whatever it was before, and takes no reading from
    the sensor. *)
Theorem app_peripheral_setup_order (H : app_h) (w : world) :
  exists s : APP_LETIMER_PWM_TypeDef,
    issued (app_peripheral_setup H) w
      = [Cmu_open; Sleep_open; Gpio_open; Si1133_i2c_open; Scheduler_open;
         Rgb_init; Letimer_pwm_open (LETIMER0 H) s;
         Letimer_start (LETIMER0 H) true]
    /\ RGB_COLOR (exec (app_peripheral_setup H) w) = 0
    /\ (forall i, si1133_results (exec (app_peripheral_setup H) w) i
                  = si1133_results w i).
Proof.
  eexists. split.
  - apply issued_of_app. apply app_peripheral_setup_calls.
  - split; [reflexivity|]. intros i. reflexivity.
Qed.



(** ** Board configuration *)

(** X10: brd_config.h assigns no port/pin pair to two signals: the two
    board LEDs, the RGB LED enable, selector and colour lines and the
    Si1133 bus and enable lines are on thirteen different pins. *)
Theorem brd_config_pins_distinct :
  NoDup BrdConfig.pins /\ length BrdConfig.pins = 13%nat.
Proof.
  split; [|reflexivity].
  unfold BrdConfig.pins.
  repeat (constructor;
          [simpl; intros F;
           repeat (destruct F as [F|F]; [discriminate F|]); exact F|]).
  constructor.
Qed.
